(** * The approval flow of the wallet demo (App component)

    A shallow embedding of the two closures of the [App] component that
    carry decision logic: [requestGasParams] (the gas parameter resolver)
    and [onHandleApprove] (the approval submission flow), together with the
    router address table and the memoised router lookup.

    Awaited calls on the chain transport are modelled by their settled
    outcome; the order in which they are issued is recorded in the state
    the flow threads, next to the two visible result fields. *)

From Stdlib Require Import ZArith String Ascii List Lia.
From stdpp Require Import base option strings gmap list.

Local Open Scope string_scope.
Local Open Scope list_scope.
Local Open Scope Z_scope.

(** ** JavaScript values the flow looks at *)

(** A value that reaches a [catch] clause.  [ErrorObj m] is an instance of
    [Error] whose [message] is [m]; [NonError o] is any other value, with
    [o] its [message] property when that property is a string. *)
Inductive thrown : Type :=
  | ErrorObj (message : string)
  | NonError (message : option string).

(** [error instanceof Error] *)
Definition instanceof_Error (error : thrown) : bool :=
  match error with
  | ErrorObj _ => true
  | NonError _ => false
  end.

(** [error.message], when it is a string. *)
Definition message_of (error : thrown) : option string :=
  match error with
  | ErrorObj m => Some m
  | NonError o => o
  end.

(** A settled promise: rejected with a thrown value or fulfilled. *)
Definition outcome (A : Type) : Type := (thrown + A)%type.

(** Truthiness of a [string | undefined]: [undefined] and [''] are falsy. *)
Definition truthy (v : option string) : option string :=
  match v with
  | Some s => if String.eqb s "" then None else Some s
  | None => None
  end.

(** [hay.startsWith(needle)] *)
Fixpoint starts_with (hay needle : string) {struct needle} : bool :=
  match needle, hay with
  | EmptyString, _ => true
  | String _ _, EmptyString => false
  | String a needle', String b hay' => Ascii.eqb a b && starts_with hay' needle'
  end.

(** [hay.includes(needle)] *)
Fixpoint includes (hay needle : string) : bool :=
  starts_with hay needle ||
  match hay with
  | EmptyString => false
  | String _ hay' => includes hay' needle
  end.

(** Hexadecimal [BigInt] literals: [BigInt('0x...')]. *)
Definition hex_digit (a : ascii) : option Z :=
  let n := Z.of_N (N_of_ascii a) in
  if (48 <=? n) && (n <=? 57) then Some (n - 48)
  else if (97 <=? n) && (n <=? 102) then Some (n - 87)
  else if (65 <=? n) && (n <=? 70) then Some (n - 55)
  else None.

Fixpoint hex_value (acc : Z) (digits : string) : option Z :=
  match digits with
  | EmptyString => Some acc
  | String a rest =>
      match hex_digit a with
      | Some d => hex_value (16 * acc + d) rest
      | None => None
      end
  end.

Definition BigInt (literal : string) : option Z :=
  match literal with
  | String "0" (String "x" (String a rest)) => hex_value 0 (String a rest)
  | _ => None
  end.

(** ** Static tables *)

(** [UNISWAP_ADDRESSES]: router address per chain id. *)
Definition UNISWAP_ADDRESSES : gmap Z string :=
  {[ 42161 := "0x68b3465833fb72A70ecDF485E0e4C7bD8665Fc45";
     100 := "0x1b02dA8Cb0d097eB8D57A175b88c7D8b47997506";
     1313161554 := "0x2CB45Edb4517d5947aFdE3BEAbF95A582506858B" ]}.

(** One entry of an ABI: a function with named, typed inputs. *)
Record AbiFunction := {
  abi_inputs : list (string * string);
  abi_name : string;
  abi_outputs : list (string * string);
  abi_stateMutability : string;
  abi_type : string
}.

Definition APPROVE_ABI : list AbiFunction :=
  [ {| abi_inputs := [("spender", "address"); ("amount", "uint256")];
       abi_name := "approve";
       abi_outputs := [];
       abi_stateMutability := "nonpayable";
       abi_type := "function" |} ].

(** ** The chain transport and the signing client *)

(** Modelled from the spec: the fee values the transport library hands back
    (its type declaration is not part of the sources).  Section 3 of the
    design gives the two shapes of a gas quote: fee-market pricing with
    [maxFeePerGas] and [maxPriorityFeePerGas], or legacy pricing with
    [gasPrice]. *)
Inductive FeeValues : Type :=
  | FeeValuesEIP1559 (maxFeePerGas maxPriorityFeePerGas : Z)
  | FeeValuesLegacy (gasPrice : Z).

(** The fee values as the object they are: property names to amounts. *)
Definition fee_fields (fees : FeeValues) : gmap string Z :=
  match fees with
  | FeeValuesEIP1559 maxFee maxPriority =>
      {[ "maxFeePerGas" := maxFee; "maxPriorityFeePerGas" := maxPriority ]}
  | FeeValuesLegacy price => {[ "gasPrice" := price ]}
  end.

(** [name in fees] *)
Definition has_field (name : string) (fees : FeeValues) : bool :=
  bool_decide (is_Some (fee_fields fees !! name)).

(** The call descriptor [params] of [onHandleApprove]. *)
Record CallParams := {
  p_abi : list AbiFunction;
  p_account : string;
  p_functionName : string;
  p_address : string;
  p_args : string * Z
}.

(** The object handed to [writeContract]: the descriptor, the spread fee
    values and the gas limit. *)
Record WriteRequest := {
  w_params : CallParams;
  w_fees : FeeValues;
  w_gas : Z
}.

Record Chain := {
  chain_id : Z;
  chain_name : string
}.

(** What the flow consumes of the public client: its chain and the settled
    outcome of each of its three read-only calls. *)
Record PublicClient := {
  chain : option Chain;
  estimateContractGas : CallParams → outcome Z;
  estimateFeesPerGas : outcome FeeValues;
  getGasPrice : outcome Z
}.

Record WalletClient := {
  writeContract : WriteRequest → outcome string
}.

(** The network calls, in the form they are issued. *)
Inductive call : Type :=
  | EstimateContractGas (params : CallParams)
  | EstimateFeesPerGas
  | GetGasPrice
  | WriteContract (request : WriteRequest).

(** ** State threaded through the flow *)

(** The two visible result fields ([useState]) and the network calls issued
    so far, oldest first. *)
Record State := {
  txHash : option string;
  errorMessage : option string;
  network : list call
}.

Definition M (A : Type) : Type := State → State * outcome A.

Global Instance M_ret : MRet M := λ A (a : A) s, (s, inr a).

Global Instance M_bind : MBind M := λ A B (k : A → M B) (m : M A) s,
  match m s with
  | (s', inl e) => (s', inl e)
  | (s', inr a) => k a s'
  end.

Definition throw {A : Type} (e : thrown) : M A := λ s, (s, inl e).

(** [try { body } catch (error) { handler }] *)
Definition try_catch {A : Type} (body : M A) (handler : thrown → M A) : M A :=
  λ s, match body s with
       | (s', inl e) => handler e s'
       | (s', inr a) => (s', inr a)
       end.

(** The state once further calls went out; the visible fields stay. *)
Definition sent (s : State) (calls : list call) : State :=
  {| txHash := txHash s; errorMessage := errorMessage s;
     network := network s ++ calls |}.

(** [await] of a network call: the call is issued, then its outcome is
    delivered. *)
Definition await {A : Type} (c : call) (r : outcome A) : M A :=
  λ s, (sent s [c], r).

Definition setTxHash (v : option string) : M unit :=
  λ s, ({| txHash := v; errorMessage := errorMessage s;
           network := network s |}, inr tt).

Definition setErrorMessage (v : option string) : M unit :=
  λ s, ({| txHash := txHash s; errorMessage := v;
           network := network s |}, inr tt).

Definition initial : State :=
  {| txHash := None; errorMessage := None; network := [] |}.

(** ** The component *)

(** What the hooks hand to one render of [App]: [account.address], the
    public client, the wallet client and the token address typed so far. *)
Record Hooks := {
  h_address : option string;
  h_publicClient : option PublicClient;
  h_walletClient : option WalletClient;
  h_tokenAddress : string
}.

(** The constants of one render that [requestGasParams] and
    [onHandleApprove] close over. *)
Record Closure := {
  address : option string;
  publicClient : option PublicClient;
  walletClient : option WalletClient;
  tokenAddress : string;
  uniswapAddress : option string
}.

(** [publicClient.chain?.id || 0] *)
Definition active_key (pc : PublicClient) : Z :=
  match chain pc with
  | Some ch => if chain_id ch =? 0 then 0 else chain_id ch
  | None => 0
  end.

(** The [useMemo] callback of [uniswapAddress].  It reads [chain] off the
    public client without a guard: with no client the read raises and the
    component does not render ([None]). *)
Definition uniswapAddress_memo (client : option PublicClient) : option (option string) :=
  match client with
  | Some pc => Some (UNISWAP_ADDRESSES !! active_key pc)
  | None => None
  end.

Definition render (h : Hooks) : option Closure :=
  match uniswapAddress_memo (h_publicClient h) with
  | Some router =>
      Some {| address := h_address h;
              publicClient := h_publicClient h;
              walletClient := h_walletClient h;
              tokenAddress := h_tokenAddress h;
              uniswapAddress := router |}
  | None => None
  end.

Record GasParams := {
  feesPerGas : FeeValues;
  is1559 : bool
}.

(** [BigInt('0xff...ff')], sixty-four digits. *)
Definition maxAmount : Z :=
  default 0 (BigInt "0xffffffffffffffffffffffffffffffffffffffffffffffffffffffffffffffff").

(** The text shown for a thrown value:
    [error instanceof Error ? error.message : 'Unknown error']. *)
Definition shown_message (error : thrown) : string :=
  match error with
  | ErrorObj m => m
  | NonError _ => "Unknown error"
  end.

(** The four preconditions, in the order the design lists them. *)
Inductive precondition : Type :=
  | AccountPresent
  | TransportPresent
  | RouterResolved
  | TokenNonEmpty.

Definition holds (c : Closure) (p : precondition) : bool :=
  match p with
  | AccountPresent => bool_decide (is_Some (truthy (address c)))
  | TransportPresent => bool_decide (is_Some (publicClient c))
  | RouterResolved => bool_decide (is_Some (truthy (uniswapAddress c)))
  | TokenNonEmpty => negb (String.eqb (tokenAddress c) "")
  end.

(** The first precondition of the list that the closure violates. *)
Definition first_violated (c : Closure) : option precondition :=
  head (filter (λ p, holds c p = false)
          [AccountPresent; TransportPresent; RouterResolved; TokenNonEmpty]).

(** The message the flow shows for each violated precondition. *)
Definition precondition_message (p : precondition) : string :=
  match p with
  | AccountPresent => "Wallet not Connected"
  | TransportPresent => "Wallet not Connected"
  | RouterResolved => "Target contract is required"
  | TokenNonEmpty => "Token is required"
  end.

(** What a network call carries as allowance, when it carries a call
    descriptor. *)
Definition allowance_of (c : call) : option Z :=
  match c with
  | EstimateContractGas params => Some (snd (p_args params))
  | WriteContract request => Some (snd (p_args (w_params request)))
  | EstimateFeesPerGas | GetGasPrice => None
  end.

(** ** Sample collaborators, used to run the flow on concrete inputs *)

Definition arbitrum : Chain := {| chain_id := 42161; chain_name := "Arbitrum One" |}.
Definition mainnet : Chain := {| chain_id := 1; chain_name := "Ethereum" |}.

Definition owner : string := "0x1111111111111111111111111111111111111111".
Definition token : string := "0xAAAAAAAAAAAAAAAAAAAAAAAAAAAAAAAAAAAAAAAA".
Definition router42161 : string := "0x68b3465833fb72A70ecDF485E0e4C7bD8665Fc45".

(** A client on a fee-market chain. *)
Definition client1559 (ch : option Chain) : PublicClient :=
  {| chain := ch;
     estimateContractGas := λ _, inr 46000;
     estimateFeesPerGas := inr (FeeValuesEIP1559 30 2);
     getGasPrice := inr 25 |}.

(** A client whose fee estimation is rejected with the given value. *)
Definition clientRejecting (ch : option Chain) (e : thrown) : PublicClient :=
  {| chain := ch;
     estimateContractGas := λ _, inr 46000;
     estimateFeesPerGas := inl e;
     getGasPrice := inr 25 |}.

(** A client whose fee estimation answers with a legacy price. *)
Definition clientLegacyQuote (ch : option Chain) : PublicClient :=
  {| chain := ch;
     estimateContractGas := λ _, inr 46000;
     estimateFeesPerGas := inr (FeeValuesLegacy 25);
     getGasPrice := inr 25 |}.

Definition wallet : WalletClient :=
  {| writeContract := λ _, inr "0xabc123" |}.

(** A client whose gas estimation is rejected with the given value. *)
Definition clientGasRejecting (ch : option Chain) (e : thrown) : PublicClient :=
  {| chain := ch;
     estimateContractGas := λ _, inl e;
     estimateFeesPerGas := inr (FeeValuesEIP1559 30 2);
     getGasPrice := inr 25 |}.

(** A client whose fee estimation and legacy lookup are both rejected. *)
Definition clientNoPrice (ch : option Chain) (e e' : thrown) : PublicClient :=
  {| chain := ch;
     estimateContractGas := λ _, inr 46000;
     estimateFeesPerGas := inl e;
     getGasPrice := inl e' |}.

(** A wallet whose write is rejected with the given value. *)
Definition walletRejecting (e : thrown) : WalletClient :=
  {| writeContract := λ _, inl e |}.

Definition reverted : thrown := ErrorObj "execution reverted".
Definition rejected : thrown := ErrorObj "User rejected the request.".

Definition no1559 : thrown := ErrorObj "Chain does not support EIP-1559 fees.".
Definition timed_out : thrown := ErrorObj "The request took too long to respond.".

Definition hooks (a : option string) (pc : option PublicClient)
    (wc : option WalletClient) (t : string) : Hooks :=
  {| h_address := a; h_publicClient := pc; h_walletClient := wc;
     h_tokenAddress := t |}.

Definition closure (a : option string) (pc : option PublicClient)
    (wc : option WalletClient) (t : string) (r : option string) : Closure :=
  {| address := a; publicClient := pc; walletClient := wc;
     tokenAddress := t; uniswapAddress := r |}.

(** The text V8 gives the [TypeError] raised by [undefined.includes]. *)
Definition v8_type_error (_ : thrown) : string :=
  "Cannot read properties of undefined (reading 'includes')".

Section App.

(** The message of the [TypeError] the engine raises when [message] of the
    caught value is not a string; its text is the engine's. *)
Variable type_error_message : thrown → string.

(** [(error as Error).message.includes('1559')].  Exact for a value whose
    [message] is a string, and for one whose [message] is undefined, where
    the read of [includes] raises; a [message] of another kind is treated
    like an undefined one. *)
Definition message_includes_1559 (error : thrown) : M bool :=
  match message_of error with
  | Some m => mret (includes m "1559")
  | None => throw (ErrorObj (type_error_message error))
  end.

(** Lines 40 to 59: the guard on the public client, the fee estimation
    inside [try], and the [catch] clause with the legacy lookup. *)
Definition requestGasParams (c : Closure) : M GasParams :=
  match publicClient c with
  | None => throw (ErrorObj "Public client is required")
  | Some pc =>
      try_catch
        (fees ← await EstimateFeesPerGas (estimateFeesPerGas pc);
         let is1559 := has_field "maxFeePerGas" fees in
         mret {| feesPerGas := fees; is1559 := is1559 |})
        (λ error,
           unsupported ← message_includes_1559 error;
           if unsupported : bool then
             gasPrice ← await GetGasPrice (getGasPrice pc);
             mret {| feesPerGas := FeeValuesLegacy gasPrice; is1559 := false |}
           else throw error)
  end.

(** Lines 66 to 78 of [onHandleApprove]: the guards. *)
Definition validating (c : Closure) : M (string * PublicClient * string * string) :=
  match truthy (address c), publicClient c with
  | Some account, Some pc =>
      match truthy (uniswapAddress c) with
      | None => throw (ErrorObj "Target contract is required")
      | Some router =>
          match truthy (Some (tokenAddress c)) with
          | None => throw (ErrorObj "Token is required")
          | Some tokenAddr => mret (account, pc, router, tokenAddr)
          end
      end
  | _, _ => throw (ErrorObj "Wallet not Connected")
  end.

(** Lines 80 to 89: the call descriptor. *)
Definition approve_params (account router tokenAddr : string) : CallParams :=
  {| p_abi := APPROVE_ABI;
     p_account := account;
     p_functionName := "approve";
     p_address := tokenAddr;
     p_args := (router, maxAmount) |}.

(** Lines 91 to 95: the gas limit, then the wallet client guard. *)
Definition estimatingGas (c : Closure)
    (v : string * PublicClient * string * string) : M (CallParams * Z * WalletClient) :=
  let '(account, pc, router, tokenAddr) := v in
  let params := approve_params account router tokenAddr in
  gasLimit ← await (EstimateContractGas params) (estimateContractGas pc params);
  match walletClient c with
  | None => throw (ErrorObj "Wallet client not available")
  | Some wc => mret (params, gasLimit, wc)
  end.

(** Lines 63 to 95: everything the [try] block does before it asks for
    the gas quote. *)
Definition before_quote (c : Closure) : M (CallParams * Z * WalletClient) :=
  setErrorMessage None;;
  setTxHash None;;
  v ← validating c;
  estimatingGas c v.

(** Lines 98 to 105: the write, then the hash is recorded. *)
Definition submitting (r : CallParams * Z * WalletClient) (gp : GasParams) : M unit :=
  let '(params, gasLimit, wc) := r in
  let request := {| w_params := params; w_fees := feesPerGas gp; w_gas := gasLimit |} in
  hash ← await (WriteContract request) (writeContract wc request);
  setTxHash (Some hash).

(** Lines 63 to 105: the body of the [try] of [onHandleApprove]. *)
Definition try_block (c : Closure) : M unit :=
  r ← before_quote c;
  gp ← requestGasParams c;
  submitting r gp.

(** Lines 61 to 110.  The [catch] clause shows the message; what goes to
    the console ([console.log], [console.error]) is left out. *)
Definition onHandleApprove (c : Closure) : M unit :=
  try_catch (try_block c)
    (λ error, setErrorMessage (Some (shown_message error))).

End App.

(** ** Notions the properties are stated with *)

(** The state a failed run leaves behind. *)
Definition failed (s : State) (calls : list call) (message : string) : State :=
  {| txHash := None; errorMessage := Some message;
     network := network s ++ calls |}.

(** The state a successful run leaves behind. *)
Definition succeeded (s : State) (calls : list call) (hash : string) : State :=
  {| txHash := Some hash; errorMessage := None;
     network := network s ++ calls |}.

(** [issues P Q m]: whatever [m] does, it removes nothing from the network
    record, the calls it adds all satisfy [P], and a value it returns
    satisfies [Q]. *)
Definition issues {A : Type} (P : call → Prop) (Q : A → Prop) (m : M A) : Prop :=
  ∀ s, ∃ added,
    network (m s).1 = network s ++ added ∧ Forall P added ∧
    match (m s).2 with inr a => Q a | inl _ => True end.

(** The allowance a call carries, if it carries one, is the maximum. *)
Definition max_allowance (ev : call) : Prop :=
  match allowance_of ev with
  | Some amount => amount = 2 ^ 256 - 1
  | None => True
  end.

(** A chain without fee-market support, as the resolver meets it: the fee
    estimation answers without a max-fee field, or it is rejected with a
    message containing "1559" and the legacy lookup answers. *)
Definition without_fee_market (pc : PublicClient) : Prop :=
  (∃ fees, estimateFeesPerGas pc = inr fees ∧
           has_field "maxFeePerGas" fees = false) ∨
  (∃ e m gasPrice, estimateFeesPerGas pc = inl e ∧ message_of e = Some m ∧
                   includes m "1559" = true ∧ getGasPrice pc = inr gasPrice).

Ltac run_resolver :=
  unfold requestGasParams, try_catch, message_includes_1559,
    mbind, M_bind, mret, M_ret, await, throw; simpl.

Ltac run_flow :=
  unfold onHandleApprove, try_block, before_quote, validating, estimatingGas,
    submitting, try_catch, setErrorMessage, setTxHash,
    mbind, M_bind, mret, M_ret, await, throw; simpl.

(** ** What the component shows, and the wagmi configuration *)

(** Lines 246 to 270: the error banner and the success banner.  Both sit in
    the panel that line 155 renders for [account.status === 'connected'],
    and each is rendered when its field is truthy. *)
Record Banners := {
  error_banner : option string;
  success_banner : option string
}.

Definition banners (status : string) (s : State) : Banners :=
  if String.eqb status "connected"
  then {| error_banner := truthy (errorMessage s);
          success_banner := truthy (txHash s) |}
  else {| error_banner := None; success_banner := None |}.

(** [src/wagmi.ts]: the configuration.  The five chains are constants of
    the chain library and are taken as given; [transports] is the object
    literal with one computed key per chain, later keys written last. *)
Inductive Connector : Type := injected.

Inductive Transport : Type := http.

Record Config := {
  chains : list Chain;
  connectors : list Connector;
  transports : gmap Z Transport
}.

Definition config (mainnet sepolia arbitrum gnosis aurora : Chain) : Config :=
  {| chains := [mainnet; sepolia; arbitrum; gnosis; aurora];
     connectors := [injected];
     transports :=
       <[chain_id aurora := http]>
         (<[chain_id gnosis := http]>
            (<[chain_id arbitrum := http]>
               (<[chain_id sepolia := http]>
                  (<[chain_id mainnet := http]> ∅)))) |}.

(** The calls of a run that goes all the way, in the order they go out:
    the gas estimation, the fee estimation, the legacy price when it is
    looked up, the write. *)
Definition flow_calls (params : CallParams) (legacy : bool)
    (request : WriteRequest) : list call :=
  EstimateContractGas params :: EstimateFeesPerGas ::
  (if legacy then [GetGasPrice] else []) ++ [WriteContract request].

(** * Properties *)

(** ** Strings and literals *)

Lemma starts_with_app (needle rest : string) :
  starts_with (needle +:+ rest) needle = true.
Proof.
  induction needle as [|a needle IH]; simpl; [done|].
  rewrite Ascii.eqb_refl. exact IH.
Qed.

Lemma starts_with_split (hay needle : string) :
  starts_with hay needle = true → ∃ rest, hay = needle +:+ rest.
Proof.
  revert hay. induction needle as [|a needle IH]; intros hay H.
  - by exists hay.
  - destruct hay as [|b hay]; simpl in H; [done|].
    apply andb_prop in H as [Hab Hrest].
    apply Ascii.eqb_eq in Hab as ->.
    destruct (IH _ Hrest) as [rest ->]. by exists rest.
Qed.

Lemma includes_starts_with (hay needle : string) :
  starts_with hay needle = true → includes hay needle = true.
Proof. destruct hay; simpl; by intros ->. Qed.

(** [includes] is the substring test. *)
Lemma includes_spec (hay needle : string) :
  includes hay needle = true ↔ ∃ before after, hay = before +:+ needle +:+ after.
Proof.
  split.
  - induction hay as [|b hay IH]; simpl; intros H.
    + apply orb_prop in H as [H|H]; [|done].
      destruct (starts_with_split _ _ H) as [rest ->]. by exists "", rest.
    + apply orb_prop in H as [H|H].
      * destruct (starts_with_split _ _ H) as [rest Hrest].
        exists "", rest. by rewrite Hrest.
      * destruct (IH H) as (before & after & ->).
        by exists (String b before), after.
  - intros (before & after & ->).
    induction before as [|b before IH].
    + apply includes_starts_with. exact (starts_with_app needle after).
    + change (includes (String b (before +:+ needle +:+ after)) needle = true).
      simpl. rewrite IH. apply orb_true_r.
Qed.

Lemma BigInt_max_literal :
  BigInt "0xffffffffffffffffffffffffffffffffffffffffffffffffffffffffffffffff"
  = Some (2 ^ 256 - 1).
Proof. vm_compute. reflexivity. Qed.

Lemma maxAmount_value : maxAmount = 2 ^ 256 - 1.
Proof. unfold maxAmount. by rewrite BigInt_max_literal. Qed.

Lemma truthy_Some (v : option string) (s : string) :
  truthy v = Some s → v = Some s ∧ s ≠ "".
Proof.
  destruct v as [t|]; simpl; [|done].
  destruct (String.eqb_spec t ""); [done|]. by intros [= ->].
Qed.

Lemma truthy_None (v : option string) :
  truthy v = None ↔ v = None ∨ v = Some "".
Proof.
  destruct v as [t|]; simpl; [|by split; [left|]].
  destruct (String.eqb_spec t "") as [->|Hne]; split; try done; [by right|].
  intros [|[=]]; done.
Qed.

(** ** What a computation may put on the network *)

Section Issues.
Context {A B : Type} (P : call → Prop).

Lemma issues_mret (Q : A → Prop) (a : A) : Q a → issues P Q (mret a).
Proof. intros Ha s. exists []. by rewrite app_nil_r. Qed.

Lemma issues_throw (Q : A → Prop) (e : thrown) : issues P Q (throw e).
Proof. intros s. exists []. by rewrite app_nil_r. Qed.

Lemma issues_await (c : call) (r : outcome A) :
  P c → issues P (λ _, True) (await c r).
Proof.
  intros Hc s. exists [c]. split; [done|]. split; [by constructor|].
  simpl. by destruct r.
Qed.

Lemma issues_bind (Q : A → Prop) (R : B → Prop) (m : M A) (k : A → M B) :
  issues P Q m → (∀ a, Q a → issues P R (k a)) → issues P R (m ≫= k).
Proof.
  intros Hm Hk s. destruct (Hm s) as (l1 & E1 & F1 & Q1).
  unfold mbind, M_bind. destruct (m s) as [s1 [e|a]]; simpl in *.
  - by exists l1.
  - destruct (Hk a Q1 s1) as (l2 & E2 & F2 & R2). exists (l1 ++ l2).
    rewrite E2, E1, app_assoc. split; [done|]. split; [|done].
    by apply Forall_app.
Qed.

Lemma issues_try_catch (Q : A → Prop) (m : M A) (h : thrown → M A) :
  issues P Q m → (∀ e, issues P Q (h e)) → issues P Q (try_catch m h).
Proof.
  intros Hm Hh s. destruct (Hm s) as (l1 & E1 & F1 & Q1).
  unfold try_catch. destruct (m s) as [s1 [e|a]]; simpl in *.
  - destruct (Hh e s1) as (l2 & E2 & F2 & Q2). exists (l1 ++ l2).
    rewrite E2, E1, app_assoc. split; [done|]. split; [|done].
    by apply Forall_app.
  - by exists l1.
Qed.
End Issues.

Lemma issues_setTxHash (P : call → Prop) (v : option string) :
  issues P (λ _, True) (setTxHash v).
Proof. intros s. exists []. by rewrite app_nil_r. Qed.

Lemma issues_setErrorMessage (P : call → Prop) (v : option string) :
  issues P (λ _, True) (setErrorMessage v).
Proof. intros s. exists []. by rewrite app_nil_r. Qed.

Create HintDb issues.
#[local] Hint Resolve issues_mret issues_throw issues_await issues_setTxHash
  issues_setErrorMessage : issues.

Section Properties.

Variable te : thrown → string.

Lemma requestGasParams_issues (c : Closure) :
  issues max_allowance (λ _, True) (requestGasParams te c).
Proof.
  unfold requestGasParams. destruct (publicClient c) as [pc|]; [|auto with issues].
  apply issues_try_catch.
  - eapply issues_bind; [by apply issues_await|]. auto with issues.
  - intros e. apply issues_bind with (Q := λ _, True).
    + unfold message_includes_1559. destruct (message_of e); auto with issues.
    + intros [|] _; [|auto with issues].
      eapply issues_bind; [by apply issues_await|]. auto with issues.
Qed.

Lemma before_quote_issues (c : Closure) :
  issues max_allowance (λ r, max_allowance (EstimateContractGas r.1.1))
    (before_quote c).
Proof.
  unfold before_quote.
  eapply issues_bind; [by apply issues_setErrorMessage|intros _ _].
  eapply issues_bind; [by apply issues_setTxHash|intros _ _].
  apply issues_bind with (Q := λ _, True).
  - unfold validating.
    destruct (truthy (address c)), (publicClient c); auto with issues.
    destruct (truthy (uniswapAddress c)); auto with issues.
    destruct (truthy (Some (tokenAddress c))); auto with issues.
  - intros [[[account pc] router] tokenAddr] _. unfold estimatingGas.
    eapply issues_bind.
    + apply issues_await. unfold max_allowance; simpl. apply maxAmount_value.
    + intros gasLimit _. destruct (walletClient c); auto with issues.
      apply issues_mret. unfold max_allowance; simpl. apply maxAmount_value.
Qed.

(** C1: every call descriptor the flow builds carries 2^256 - 1 as its
    second argument, and every network call the flow issues that carries a
    descriptor (the gas estimation and the submitted transaction) carries
    exactly that allowance; no run submits another value. *)
Theorem approve_amount_always_max (c : Closure) (s : State) :
  (∀ account router tokenAddr,
     (p_args (approve_params account router tokenAddr)).2 = 2 ^ 256 - 1) ∧
  ∃ added,
    network (onHandleApprove te c s).1 = network s ++ added ∧
    Forall max_allowance added.
Proof.
  split; [intros; apply maxAmount_value|].
  assert (issues max_allowance (λ _, True) (onHandleApprove te c)) as H.
  { apply issues_try_catch; [|auto with issues].
    eapply issues_bind; [apply before_quote_issues|].
    intros [[params gasLimit] wc] Hparams.
    eapply issues_bind; [apply requestGasParams_issues|].
    intros gp _. unfold submitting.
    eapply issues_bind; [by apply issues_await|]. auto with issues. }
  destruct (H s) as (added & E & F & _). by exists added.
Qed.

(** ** The gas parameter resolver *)

Lemma sent_sent (s : State) (l1 l2 : list call) :
  sent (sent s l1) l2 = sent s (l1 ++ l2).
Proof. unfold sent; simpl. by rewrite app_assoc. Qed.

Lemma has_field_maxFeePerGas (fees : FeeValues) :
  has_field "maxFeePerGas" fees =
  match fees with FeeValuesEIP1559 _ _ => true | FeeValuesLegacy _ => false end.
Proof.
  unfold has_field. destruct fees; simpl.
  - apply bool_decide_eq_true. by rewrite lookup_insert_eq.
  - apply bool_decide_eq_false. by rewrite lookup_singleton_ne.
Qed.

Lemma dom_fee_fields (fees : FeeValues) :
  dom (fee_fields fees) =
  match fees with
  | FeeValuesEIP1559 _ _ => {[ "maxFeePerGas"; "maxPriorityFeePerGas" ]}
  | FeeValuesLegacy _ => {[ "gasPrice" ]}
  end.
Proof.
  destruct fees; simpl.
  - by rewrite dom_insert_L, dom_singleton_L.
  - by rewrite dom_singleton_L.
Qed.

(** The resolver on a fulfilled fee estimation. *)
Lemma requestGasParams_fulfilled (c : Closure) (pc : PublicClient)
    (fees : FeeValues) (s : State) :
  publicClient c = Some pc →
  estimateFeesPerGas pc = inr fees →
  requestGasParams te c s =
    (sent s [EstimateFeesPerGas],
     inr {| feesPerGas := fees; is1559 := has_field "maxFeePerGas" fees |}).
Proof. intros Hpc Hfees. run_resolver. by rewrite Hpc, Hfees. Qed.

(** The resolver on a rejected fee estimation whose value carries a message
    text. *)
Lemma requestGasParams_rejected (c : Closure) (pc : PublicClient)
    (e : thrown) (m : string) (s : State) :
  publicClient c = Some pc →
  estimateFeesPerGas pc = inl e →
  message_of e = Some m →
  requestGasParams te c s =
    if includes m "1559"
    then (sent s [EstimateFeesPerGas; GetGasPrice],
          match getGasPrice pc with
          | inr gasPrice =>
              inr {| feesPerGas := FeeValuesLegacy gasPrice; is1559 := false |}
          | inl e' => inl e'
          end)
    else (sent s [EstimateFeesPerGas], inl e).
Proof.
  intros Hpc He Hm. run_resolver. rewrite Hpc, He, Hm.
  destruct (includes m "1559"); [|done].
  rewrite sent_sent. by destruct (getGasPrice pc).
Qed.

(** A rejection value without a message text: reading [includes] off it
    raises, and the [TypeError] is what leaves the resolver. *)
Lemma requestGasParams_rejected_no_message (c : Closure) (pc : PublicClient)
    (e : thrown) (s : State) :
  publicClient c = Some pc →
  estimateFeesPerGas pc = inl e →
  message_of e = None →
  requestGasParams te c s = (sent s [EstimateFeesPerGas], inl (ErrorObj (te e))).
Proof. intros Hpc He Hm. run_resolver. by rewrite Hpc, He, Hm. Qed.

Lemma requestGasParams_no_client (c : Closure) (s : State) :
  publicClient c = None →
  requestGasParams te c s = (s, inl (ErrorObj "Public client is required")).
Proof. intros Hpc. run_resolver. by rewrite Hpc. Qed.

(** C2: when the fee-market estimation is rejected with an error whose
    message contains "1559", the resolver issues exactly one further call,
    the legacy gas-price lookup, and returns the price it yields as
    {feesPerGas: {gasPrice}, is1559: false} (a rejected lookup leaves the
    resolver as it is); when the message does not contain "1559" the same
    error leaves the resolver and no lookup is made.  Either way the fee
    estimation is issued once and nothing is retried. *)
Theorem requestGasParams_fallback (c : Closure) (pc : PublicClient)
    (e : thrown) (m : string) (s : State) :
  publicClient c = Some pc →
  estimateFeesPerGas pc = inl e →
  message_of e = Some m →
  (includes m "1559" = true →
     (requestGasParams te c s).1 = sent s [EstimateFeesPerGas; GetGasPrice] ∧
     (requestGasParams te c s).2 =
       match getGasPrice pc with
       | inr gasPrice =>
           inr {| feesPerGas := FeeValuesLegacy gasPrice; is1559 := false |}
       | inl e' => inl e'
       end) ∧
  (includes m "1559" = false →
     requestGasParams te c s = (sent s [EstimateFeesPerGas], inl e)).
Proof.
  intros Hpc He Hm.
  rewrite (requestGasParams_rejected c pc e m s Hpc He Hm).
  split; intros Hinc; by rewrite Hinc.
Qed.

(** C4: on a chain without fee-market support the resolver returns
    is1559 = false and a quote whose only field is gasPrice, whether the
    fee estimation was rejected or answered without a max-fee field. *)
Theorem requestGasParams_legacy (c : Closure) (pc : PublicClient) (s : State) :
  publicClient c = Some pc →
  without_fee_market pc →
  ∃ quote,
    (requestGasParams te c s).2 = inr {| feesPerGas := quote; is1559 := false |} ∧
    dom (fee_fields quote) = {[ "gasPrice" ]}.
Proof.
  intros Hpc [(fees & Hfees & Hno)|(e & m & gasPrice & He & Hm & Hinc & Hgp)].
  - exists fees. rewrite (requestGasParams_fulfilled c pc fees s Hpc Hfees), Hno.
    split; [done|]. rewrite dom_fee_fields.
    rewrite has_field_maxFeePerGas in Hno. by destruct fees.
  - exists (FeeValuesLegacy gasPrice).
    rewrite (requestGasParams_rejected c pc e m s Hpc He Hm), Hinc, Hgp.
    split; [done|]. by rewrite dom_fee_fields.
Qed.

(** C5: when the fee estimation answers and its result has a maxFeePerGas
    field, the resolver returns that result with is1559 = true; the quote
    has the fields maxFeePerGas and maxPriorityFeePerGas and no gasPrice. *)
Theorem requestGasParams_fee_market (c : Closure) (pc : PublicClient)
    (fees : FeeValues) (s : State) :
  publicClient c = Some pc →
  estimateFeesPerGas pc = inr fees →
  has_field "maxFeePerGas" fees = true →
  requestGasParams te c s =
    (sent s [EstimateFeesPerGas], inr {| feesPerGas := fees; is1559 := true |}) ∧
  dom (fee_fields fees) = {[ "maxFeePerGas"; "maxPriorityFeePerGas" ]} ∧
  "gasPrice" ∉ dom (fee_fields fees).
Proof.
  intros Hpc Hfees Hmax.
  rewrite (requestGasParams_fulfilled c pc fees s Hpc Hfees), Hmax.
  split; [done|]. rewrite dom_fee_fields.
  rewrite has_field_maxFeePerGas in Hmax. destruct fees; [|done].
  split; [done|].
  intros [H|H]%elem_of_union; by apply elem_of_singleton in H.
Qed.

(** ** The approval submission flow *)

(** The flow up to the gas quote, when the four guards pass. *)
Lemma before_quote_valid (c : Closure) (account router : string)
    (pc : PublicClient) (s : State) :
  truthy (address c) = Some account →
  publicClient c = Some pc →
  truthy (uniswapAddress c) = Some router →
  tokenAddress c ≠ "" →
  let params := approve_params account router (tokenAddress c) in
  before_quote c s =
    (sent {| txHash := None; errorMessage := None; network := network s |}
       [EstimateContractGas params],
     match estimateContractGas pc params, walletClient c with
     | inl e, _ => inl e
     | inr _, None => inl (ErrorObj "Wallet client not available")
     | inr gasLimit, Some wc => inr (params, gasLimit, wc)
     end).
Proof.
  intros Ha Hpc Hr Ht. run_flow. rewrite Ha, Hpc, Hr.
  destruct (String.eqb_spec (tokenAddress c) ""); [done|]. simpl.
  destruct (estimateContractGas pc _); [done|].
  by destruct (walletClient c).
Qed.

(** The flow up to the gas quote, when a guard fails. *)
Lemma before_quote_violated (c : Closure) (p : precondition) (s : State) :
  first_violated c = Some p →
  before_quote c s =
    ({| txHash := None; errorMessage := None; network := network s |},
     inl (ErrorObj (precondition_message p))).
Proof.
  unfold first_violated, holds. run_flow.
  destruct (truthy (address c)), (publicClient c),
    (truthy (uniswapAddress c)), (String.eqb (tokenAddress c) "");
    simpl; intros [= <-]; done.
Qed.

Lemma first_violated_None (c : Closure) :
  first_violated c = None →
  ∃ account pc router,
    truthy (address c) = Some account ∧ publicClient c = Some pc ∧
    truthy (uniswapAddress c) = Some router ∧ tokenAddress c ≠ "".
Proof.
  unfold first_violated, holds.
  destruct (truthy (address c)) as [account|], (publicClient c) as [pc|],
    (truthy (uniswapAddress c)) as [router|],
    (String.eqb_spec (tokenAddress c) ""); simpl; intros [=].
  by exists account, pc, router.
Qed.




(** C6: with the account, the transport and the router in place, an empty
    token address ends the run with "Token is required" and the network
    record is what it was: no call is issued, the gas estimation included. *)
Theorem empty_token_rejected (c : Closure) (account router : string)
    (pc : PublicClient) (s : State) :
  truthy (address c) = Some account →
  publicClient c = Some pc →
  truthy (uniswapAddress c) = Some router →
  tokenAddress c = "" →
  onHandleApprove te c s = (failed s [] "Token is required", inr ()).
Proof.
  intros Ha Hpc Hr Ht. run_flow. rewrite Ha, Hpc, Hr, Ht. simpl.
  unfold failed. by rewrite app_nil_r.
Qed.

Lemma UNISWAP_ADDRESSES_dom :
  dom UNISWAP_ADDRESSES = {[ 42161; 100; 1313161554 ]}.
Proof.
  unfold UNISWAP_ADDRESSES.
  by rewrite !dom_insert_L, dom_singleton_L, (assoc_L (∪)).
Qed.

Lemma active_key_absent (pc : PublicClient) :
  (∀ ch, chain pc = Some ch → chain_id ch ∉ dom UNISWAP_ADDRESSES) →
  UNISWAP_ADDRESSES !! active_key pc = None.
Proof.
  intros Hno. unfold active_key. destruct (chain pc) as [ch|]; [|done].
  destruct (Z.eqb_spec (chain_id ch) 0); [done|].
  apply not_elem_of_dom. by apply Hno.
Qed.

(** C7: the router table holds exactly the chain ids 42161, 100 and
    1313161554; a client without a chain is looked up under key 0, which
    the table lacks; and whenever the active chain has no entry, the flow
    of a connected account ends with "Target contract is required" and the
    network record is what it was. *)
Theorem unsupported_chain_rejected (h : Hooks) (pc : PublicClient)
    (account : string) :
  h_publicClient h = Some pc →
  truthy (h_address h) = Some account →
  (∀ ch, chain pc = Some ch → chain_id ch ∉ dom UNISWAP_ADDRESSES) →
  dom UNISWAP_ADDRESSES = {[ 42161; 100; 1313161554 ]} ∧
  (chain pc = None → active_key pc = 0) ∧
  UNISWAP_ADDRESSES !! 0 = None ∧
  ∃ c, render h = Some c ∧
       ∀ s, onHandleApprove te c s
            = (failed s [] "Target contract is required", inr ()).
Proof.
  intros Hpc Ha Hno.
  split; [exact UNISWAP_ADDRESSES_dom|].
  split; [by unfold active_key; intros ->|].
  split; [done|].
  unfold render, uniswapAddress_memo. rewrite Hpc, (active_key_absent pc Hno).
  eexists. split; [done|]. intros s. run_flow. rewrite Ha.
  unfold failed. by rewrite app_nil_r.
Qed.

(** C9, as the code has it: with the four guards passed and the gas limit
    estimated, a missing wallet client ends the run with the message
    "Wallet client not available"; the gas estimation is the only call
    issued, so neither the gas quote nor the write was asked for. *)
Theorem missing_wallet_client (c : Closure) (account router : string)
    (pc : PublicClient) (gasLimit : Z) (s : State) :
  truthy (address c) = Some account →
  publicClient c = Some pc →
  truthy (uniswapAddress c) = Some router →
  tokenAddress c ≠ "" →
  estimateContractGas pc (approve_params account router (tokenAddress c))
    = inr gasLimit →
  walletClient c = None →
  onHandleApprove te c s =
    (failed s [EstimateContractGas
                 (approve_params account router (tokenAddress c))]
       "Wallet client not available", inr ()).
Proof.
  intros Ha Hpc Hr Ht Hgas Hwc.
  pose proof (before_quote_valid c account router pc s Ha Hpc Hr Ht) as H.
  simpl in H. rewrite Hgas, Hwc in H.
  unfold onHandleApprove, try_block, try_catch, mbind, M_bind.
  by rewrite H.
Qed.

Lemma requestGasParams_first_call (c : Closure) (pc : PublicClient) (s : State) :
  publicClient c = Some pc →
  ∃ rest, (requestGasParams te c s).1 = sent s (EstimateFeesPerGas :: rest).
Proof.
  intros Hpc. destruct (estimateFeesPerGas pc) as [e|fees] eqn:He.
  - destruct (message_of e) as [m|] eqn:Hm.
    + rewrite (requestGasParams_rejected c pc e m s Hpc He Hm).
      destruct (includes m "1559"); by eexists.
    + rewrite (requestGasParams_rejected_no_message c pc e s Hpc He Hm).
      by eexists.
  - rewrite (requestGasParams_fulfilled c pc fees s Hpc He). by eexists.
Qed.

Lemma requestGasParams_sent (c : Closure) (s : State) :
  ∃ calls, (requestGasParams te c s).1 = sent s calls.
Proof.
  destruct (publicClient c) as [pc|] eqn:Hpc.
  - destruct (requestGasParams_first_call c pc s Hpc) as [rest ->]. by eexists.
  - rewrite (requestGasParams_no_client c s Hpc). exists []. unfold sent.
    destruct s; simpl. by rewrite app_nil_r.
Qed.

(** C10: when the flow gets as far as asking for the gas quote, the public
    client is present, so the resolver goes on to the fee estimation call;
    its guard, which throws "Public client is required" with the network
    untouched, is not what runs. *)
Theorem resolver_guard_unreachable (c : Closure) (s s' : State)
    (r : CallParams * Z * WalletClient) :
  before_quote c s = (s', inr r) →
  ∃ pc, publicClient c = Some pc ∧
    (∃ rest, network (requestGasParams te c s').1
             = network s' ++ EstimateFeesPerGas :: rest) ∧
    requestGasParams te c s' ≠ (s', inl (ErrorObj "Public client is required")).
Proof.
  intros Hbefore.
  destruct (publicClient c) as [pc|] eqn:Hpc.
  - exists pc. split; [done|].
    destruct (requestGasParams_first_call c pc s' Hpc) as [rest Hrest].
    split; [exists rest; by rewrite Hrest|].
    intros Heq. rewrite Heq in Hrest. simpl in Hrest.
    apply (f_equal network) in Hrest. simpl in Hrest.
    apply (f_equal length) in Hrest. rewrite length_app in Hrest.
    simpl in Hrest. lia.
  - exfalso. revert Hbefore. run_flow. rewrite Hpc.
    by destruct (truthy (address c)).
Qed.

(** How the [try] block ends: thrown, with both visible fields cleared, or
    returned, with the hash of the write recorded. *)
Lemma try_block_outcome (c : Closure) (s : State) :
  ∃ calls,
    match (try_block te c s).2 with
    | inl _ =>
        (try_block te c s).1 =
          {| txHash := None; errorMessage := None;
             network := network s ++ calls |}
    | inr _ =>
        ∃ wc request hash earlier,
          walletClient c = Some wc ∧ writeContract wc request = inr hash ∧
          calls = earlier ++ [WriteContract request] ∧
          (try_block te c s).1 = succeeded s calls hash
    end.
Proof.
  destruct (first_violated c) as [p|] eqn:Hfirst.
  - exists []. unfold try_block, mbind, M_bind.
    rewrite (before_quote_violated c p s Hfirst); simpl. by rewrite app_nil_r.
  - destruct (first_violated_None c Hfirst) as (account & pc & router & Ha & Hpc & Hr & Ht).
    pose proof (before_quote_valid c account router pc s Ha Hpc Hr Ht) as H.
    simpl in H. set (params := approve_params account router (tokenAddress c)) in *.
    unfold try_block, mbind, M_bind. rewrite H. clear H.
    destruct (estimateContractGas pc params) as [e|gasLimit];
      [by exists [EstimateContractGas params]|].
    destruct (walletClient c) as [wc|] eqn:Hwc;
      [|by exists [EstimateContractGas params]].
    match goal with |- context [requestGasParams te c ?s1] =>
      destruct (requestGasParams_sent c s1) as [quoted Hq];
      destruct (requestGasParams te c s1) as [s2 [e|gp]] end;
      simpl in Hq; subst s2.
    + exists (EstimateContractGas params :: quoted). simpl.
      by rewrite sent_sent.
    + unfold submitting, await, setTxHash. simpl.
      match goal with |- context [writeContract wc ?request] =>
        set (req := request); destruct (writeContract wc req) as [e|hash] eqn:Hw end.
      * exists (EstimateContractGas params :: quoted ++ [WriteContract req]).
        simpl. by rewrite !sent_sent.
      * exists (EstimateContractGas params :: quoted ++ [WriteContract req]).
        simpl. exists wc, req, hash, (EstimateContractGas params :: quoted).
        repeat split; [done|]. unfold succeeded. by rewrite <- !app_assoc.
Qed.

(** C8: every run of the flow returns without throwing.  When a step of the
    [try] block throws, the run ends with the hash cleared and the error
    field set to the message of the thrown error, or to "Unknown error" for
    a thrown value that is not an error; when no step throws, the run ends
    with the error cleared and the hash the write returned recorded.  In
    both cases at most one of the two visible fields is set. *)
Theorem flow_settles (c : Closure) (s : State) :
  ∃ s',
    onHandleApprove te c s = (s', inr ()) ∧
    (txHash s' = None ∨ errorMessage s' = None) ∧
    match (try_block te c s).2 with
    | inl error =>
        txHash s' = None ∧
        errorMessage s' =
          Some (match error with
                | ErrorObj message => message
                | NonError _ => "Unknown error"
                end)
    | inr _ =>
        errorMessage s' = None ∧
        ∃ wc request hash,
          walletClient c = Some wc ∧ writeContract wc request = inr hash ∧
          last (network s') = Some (WriteContract request) ∧
          txHash s' = Some hash
    end.
Proof.
  destruct (try_block_outcome c s) as [calls H].
  unfold onHandleApprove, try_catch.
  destruct (try_block te c s) as [s1 [error|[]]]; simpl in *.
  - subst s1. unfold setErrorMessage; simpl. eexists. split; [done|].
    simpl. auto.
  - destruct H as (wc & request & hash & earlier & Hwc & Hw & -> & ->).
    eexists. split; [done|]. simpl. split; [auto|]. split; [done|].
    exists wc, request, hash. rewrite app_assoc, last_snoc. done.
Qed.

End Properties.

(** * The flow on concrete inputs *)

(** ** End-to-end runs *)

(** Connected on chain 42161 with fee-market pricing: three calls, the
    write carries maxFeePerGas, maxPriorityFeePerGas, the estimated gas and
    the arguments (router, 2^256 - 1); the hash is shown. *)
Example run_fee_market :
  let pc := client1559 (Some arbitrum) in
  let params := approve_params owner router42161 token in
  ∃ c, render (hooks (Some owner) (Some pc) (Some wallet) token) = Some c ∧
    p_args params = (router42161, 2 ^ 256 - 1) ∧
    onHandleApprove v8_type_error c initial =
      (succeeded initial
         [EstimateContractGas params; EstimateFeesPerGas;
          WriteContract {| w_params := params;
                           w_fees := FeeValuesEIP1559 30 2;
                           w_gas := 46000 |}]
         "0xabc123", inr ()).
Proof. eexists. split; [reflexivity|]. split; [|reflexivity]. vm_compute. reflexivity. Qed.

(** The same, but the fee estimation is rejected with a message containing
    "1559": the legacy price is looked up and the write carries gasPrice. *)
Example run_legacy_fallback :
  let pc := clientRejecting (Some arbitrum) no1559 in
  let params := approve_params owner router42161 token in
  ∃ c, render (hooks (Some owner) (Some pc) (Some wallet) token) = Some c ∧
    onHandleApprove v8_type_error c initial =
      (succeeded initial
         [EstimateContractGas params; EstimateFeesPerGas; GetGasPrice;
          WriteContract {| w_params := params;
                           w_fees := FeeValuesLegacy 25;
                           w_gas := 46000 |}]
         "0xabc123", inr ()).
Proof. eexists. split; reflexivity. Qed.

(** A rejection whose message lacks "1559" is shown as it is, and the
    legacy price is not looked up. *)
Example run_other_rejection :
  let pc := clientRejecting (Some arbitrum) timed_out in
  let params := approve_params owner router42161 token in
  onHandleApprove v8_type_error
    (closure (Some owner) (Some pc) (Some wallet) token (Some router42161)) initial =
    (failed initial [EstimateContractGas params; EstimateFeesPerGas]
       "The request took too long to respond.", inr ()).
Proof. reflexivity. Qed.

(** A fee estimation that answers with a legacy price. *)
Example run_legacy_quote :
  let pc := clientLegacyQuote (Some arbitrum) in
  requestGasParams v8_type_error
    (closure (Some owner) (Some pc) (Some wallet) token (Some router42161)) initial =
    (sent initial [EstimateFeesPerGas],
     inr {| feesPerGas := FeeValuesLegacy 25; is1559 := false |}).
Proof. reflexivity. Qed.

(** No account: "Wallet not Connected" and no call at all. *)
Example run_disconnected :
  let pc := client1559 (Some arbitrum) in
  ∃ c, render (hooks None (Some pc) (Some wallet) token) = Some c ∧
    onHandleApprove v8_type_error c initial =
      (failed initial [] "Wallet not Connected", inr ()).
Proof. eexists. split; reflexivity. Qed.

(** A rejection that is not an error and has no message text: the
    [TypeError] raised in the resolver is what the flow shows. *)
Example run_rejected_with_non_error :
  let pc := clientRejecting (Some arbitrum) (NonError None) in
  let params := approve_params owner router42161 token in
  onHandleApprove v8_type_error
    (closure (Some owner) (Some pc) (Some wallet) token (Some router42161)) initial =
    (failed initial [EstimateContractGas params; EstimateFeesPerGas]
       (v8_type_error (NonError None)), inr ()).
Proof. reflexivity. Qed.

(** A write rejected with a value that is not an error. *)
Example run_write_rejected_with_non_error :
  let pc := client1559 (Some arbitrum) in
  let wc := {| writeContract := λ _, inl (NonError (Some "rejected")) |} in
  errorMessage
    (onHandleApprove v8_type_error
       (closure (Some owner) (Some pc) (Some wc) token (Some router42161))
       initial).1 = Some "Unknown error".
Proof. reflexivity. Qed.

(** ** The theorems at concrete inputs *)

Lemma requestGasParams_fallback_witness :
  let pc := clientRejecting (Some arbitrum) no1559 in
  let c := closure (Some owner) (Some pc) (Some wallet) token (Some router42161) in
  let m := "Chain does not support EIP-1559 fees." in
  (includes m "1559" = true →
     (requestGasParams v8_type_error c initial).1
       = sent initial [EstimateFeesPerGas; GetGasPrice] ∧
     (requestGasParams v8_type_error c initial).2 =
       match getGasPrice pc with
       | inr gasPrice =>
           inr {| feesPerGas := FeeValuesLegacy gasPrice; is1559 := false |}
       | inl e' => inl e'
       end) ∧
  (includes m "1559" = false →
     requestGasParams v8_type_error c initial
       = (sent initial [EstimateFeesPerGas], inl no1559)).
Proof.
  apply (requestGasParams_fallback v8_type_error
           (closure (Some owner) (Some (clientRejecting (Some arbitrum) no1559))
              (Some wallet) token (Some router42161))
           (clientRejecting (Some arbitrum) no1559) no1559
           "Chain does not support EIP-1559 fees." initial);
    reflexivity.
Defined.

Lemma requestGasParams_legacy_witness :
  let pc := clientRejecting (Some arbitrum) no1559 in
  let c := closure (Some owner) (Some pc) (Some wallet) token (Some router42161) in
  ∃ quote,
    (requestGasParams v8_type_error c initial).2
      = inr {| feesPerGas := quote; is1559 := false |} ∧
    dom (fee_fields quote) = {[ "gasPrice" ]}.
Proof.
  apply (requestGasParams_legacy v8_type_error
           (closure (Some owner) (Some (clientRejecting (Some arbitrum) no1559))
              (Some wallet) token (Some router42161))
           (clientRejecting (Some arbitrum) no1559) initial).
  - reflexivity.
  - right. exists no1559, "Chain does not support EIP-1559 fees.", 25.
    repeat split; reflexivity.
Defined.

Lemma requestGasParams_fee_market_witness :
  let pc := client1559 (Some arbitrum) in
  let c := closure (Some owner) (Some pc) (Some wallet) token (Some router42161) in
  requestGasParams v8_type_error c initial =
    (sent initial [EstimateFeesPerGas],
     inr {| feesPerGas := FeeValuesEIP1559 30 2; is1559 := true |}) ∧
  dom (fee_fields (FeeValuesEIP1559 30 2))
    = {[ "maxFeePerGas"; "maxPriorityFeePerGas" ]} ∧
  "gasPrice" ∉ dom (fee_fields (FeeValuesEIP1559 30 2)).
Proof.
  apply (requestGasParams_fee_market v8_type_error
           (closure (Some owner) (Some (client1559 (Some arbitrum)))
              (Some wallet) token (Some router42161))
           (client1559 (Some arbitrum)) (FeeValuesEIP1559 30 2) initial);
    reflexivity.
Defined.


Lemma empty_token_rejected_witness :
  onHandleApprove v8_type_error
    (closure (Some owner) (Some (client1559 (Some arbitrum))) (Some wallet) ""
       (Some router42161)) initial
  = (failed initial [] "Token is required", inr ()).
Proof.
  apply (empty_token_rejected v8_type_error
           (closure (Some owner) (Some (client1559 (Some arbitrum)))
              (Some wallet) "" (Some router42161))
           owner router42161 (client1559 (Some arbitrum)) initial);
    reflexivity.
Defined.

Lemma unsupported_chain_rejected_witness :
  let pc := client1559 (Some mainnet) in
  dom UNISWAP_ADDRESSES = {[ 42161; 100; 1313161554 ]} ∧
  (chain pc = None → active_key pc = 0) ∧
  UNISWAP_ADDRESSES !! 0 = None ∧
  ∃ c, render (hooks (Some owner) (Some pc) (Some wallet) token) = Some c ∧
       ∀ s, onHandleApprove v8_type_error c s
            = (failed s [] "Target contract is required", inr ()).
Proof.
  apply (unsupported_chain_rejected v8_type_error
           (hooks (Some owner) (Some (client1559 (Some mainnet))) (Some wallet) token)
           (client1559 (Some mainnet)) owner).
  - reflexivity.
  - reflexivity.
  - intros ch [= <-]. apply not_elem_of_dom. reflexivity.
Defined.

Lemma missing_wallet_client_witness :
  let pc := client1559 (Some arbitrum) in
  let c := closure (Some owner) (Some pc) None token (Some router42161) in
  onHandleApprove v8_type_error c initial =
    (failed initial [EstimateContractGas (approve_params owner router42161 token)]
       "Wallet client not available", inr ()).
Proof.
  apply (missing_wallet_client v8_type_error
           (closure (Some owner) (Some (client1559 (Some arbitrum))) None token
              (Some router42161))
           owner router42161 (client1559 (Some arbitrum)) 46000 initial);
    (reflexivity || discriminate).
Defined.

(** With everything in place but the wallet client, the message shown is
    not the all-lowercase "wallet client not available". *)
Lemma wallet_message_counterexample :
  let pc := client1559 (Some arbitrum) in
  let c := closure (Some owner) (Some pc) None token (Some router42161) in
  first_violated c = None ∧
  estimateContractGas pc (approve_params owner router42161 token) = inr 46000 ∧
  walletClient c = None ∧
  errorMessage (onHandleApprove v8_type_error c initial).1
    ≠ Some "wallet client not available".
Proof. repeat split; try reflexivity. discriminate. Qed.

Lemma resolver_guard_unreachable_witness :
  let pc := client1559 (Some arbitrum) in
  let c := closure (Some owner) (Some pc) (Some wallet) token (Some router42161) in
  let s' := sent initial [EstimateContractGas (approve_params owner router42161 token)] in
  ∃ pc', publicClient c = Some pc' ∧
    (∃ rest, network (requestGasParams v8_type_error c s').1
             = network s' ++ EstimateFeesPerGas :: rest) ∧
    requestGasParams v8_type_error c s'
      ≠ (s', inl (ErrorObj "Public client is required")).
Proof.
  apply (resolver_guard_unreachable v8_type_error
           (closure (Some owner) (Some (client1559 (Some arbitrum))) (Some wallet)
              token (Some router42161))
           initial
           (sent initial [EstimateContractGas (approve_params owner router42161 token)])
           (approve_params owner router42161 token, 46000, wallet)).
  reflexivity.
Defined.

(** * Further properties of the flow *)

Section FlowRuns.

Variable te : thrown → string.

(** The whole run once the four guards pass, step by step. *)
Lemma onHandleApprove_run (c : Closure) (account router : string)
    (pc : PublicClient) (s : State) :
  truthy (address c) = Some account →
  publicClient c = Some pc →
  truthy (uniswapAddress c) = Some router →
  tokenAddress c ≠ "" →
  let params := approve_params account router (tokenAddress c) in
  let s1 := sent {| txHash := None; errorMessage := None; network := network s |}
              [EstimateContractGas params] in
  onHandleApprove te c s =
    match estimateContractGas pc params with
    | inl e => (failed s [EstimateContractGas params] (shown_message e), inr ())
    | inr gasLimit =>
        match walletClient c with
        | None =>
            (failed s [EstimateContractGas params] "Wallet client not available",
             inr ())
        | Some wc =>
            match requestGasParams te c s1 with
            | (s2, inl e) =>
                ({| txHash := None; errorMessage := Some (shown_message e);
                    network := network s2 |}, inr ())
            | (s2, inr gp) =>
                let request := {| w_params := params; w_fees := feesPerGas gp;
                                  w_gas := gasLimit |} in
                match writeContract wc request with
                | inl e =>
                    ({| txHash := None; errorMessage := Some (shown_message e);
                        network := network s2 ++ [WriteContract request] |}, inr ())
                | inr hash =>
                    ({| txHash := Some hash; errorMessage := None;
                        network := network s2 ++ [WriteContract request] |}, inr ())
                end
            end
        end
    end.
Proof.
  intros Ha Hpc Hr Ht params s1.
  pose proof (before_quote_valid c account router pc s Ha Hpc Hr Ht) as H.
  simpl in H. fold params in H. fold s1 in H.
  unfold onHandleApprove, try_block, try_catch, mbind, M_bind. rewrite H. clear H.
  destruct (estimateContractGas pc params) as [e|gasLimit]; [done|].
  destruct (walletClient c) as [wc|]; [|done].
  destruct (requestGasParams_sent te c s1) as [quoted Hq].
  destruct (requestGasParams te c s1) as [s2 [e|gp]]; simpl in Hq; subst s2; [done|].
  unfold submitting, await, setTxHash, setErrorMessage; simpl.
  by destruct (writeContract wc _).
Qed.

(** The calls of the resolver when the client is there: the fee estimation,
    and the legacy lookup exactly when the estimation was rejected with a
    message containing "1559". *)
Lemma requestGasParams_calls (c : Closure) (pc : PublicClient) (s : State) :
  publicClient c = Some pc →
  ∃ legacy : bool,
    (requestGasParams te c s).1
      = sent s (EstimateFeesPerGas :: if legacy then [GetGasPrice] else []) ∧
    (legacy = true ↔
       ∃ e m, estimateFeesPerGas pc = inl e ∧ message_of e = Some m ∧
              includes m "1559" = true) ∧
    (legacy = true → ∀ gp, (requestGasParams te c s).2 = inr gp →
       ∃ gasPrice, getGasPrice pc = inr gasPrice ∧
                   feesPerGas gp = FeeValuesLegacy gasPrice).
Proof.
  intros Hpc. destruct (estimateFeesPerGas pc) as [e|fees] eqn:He.
  - destruct (message_of e) as [m|] eqn:Hm.
    + rewrite (requestGasParams_rejected te c pc e m s Hpc He Hm).
      destruct (includes m "1559") eqn:Hinc.
      * exists true. split; [done|]. split; [split; [|done]; by exists e, m|].
        intros _ gp. simpl. destruct (getGasPrice pc) as [e'|g]; [done|].
        intros [= <-]. by exists g.
      * exists false. split; [done|]. split; [|done]. split; [done|].
        intros (e' & m' & [= <-] & Hm' & Hinc'). congruence.
    + rewrite (requestGasParams_rejected_no_message te c pc e s Hpc He Hm).
      exists false. split; [done|]. split; [|done]. split; [done|].
      intros (e' & m' & [= <-] & Hm' & _). congruence.
  - rewrite (requestGasParams_fulfilled te c pc fees s Hpc He).
    exists false. split; [done|]. split; [|done]. split; [done|].
    by intros (e' & m' & [=] & _).
Qed.

(** What the resolver returns does not depend on the state it starts in. *)
Lemma requestGasParams_result (c : Closure) (s s' : State) :
  (requestGasParams te c s).2 = (requestGasParams te c s').2.
Proof.
  destruct (publicClient c) as [pc|] eqn:Hpc;
    [|by rewrite !(requestGasParams_no_client te c _ Hpc)].
  destruct (estimateFeesPerGas pc) as [e|fees] eqn:He;
    [|by rewrite !(requestGasParams_fulfilled te c pc fees _ Hpc He)].
  destruct (message_of e) as [m|] eqn:Hm;
    [|by rewrite !(requestGasParams_rejected_no_message te c pc e _ Hpc He Hm)].
  rewrite !(requestGasParams_rejected te c pc e m _ Hpc He Hm).
  by destruct (includes m "1559").
Qed.

(** The run from the fee quote on, with the calls of the resolver spelled
    out. *)
Lemma onHandleApprove_quoted (c : Closure) (account router : string)
    (pc : PublicClient) (wc : WalletClient) (gasLimit : Z) (s : State) :
  truthy (address c) = Some account →
  publicClient c = Some pc →
  truthy (uniswapAddress c) = Some router →
  tokenAddress c ≠ "" →
  let params := approve_params account router (tokenAddress c) in
  estimateContractGas pc params = inr gasLimit →
  walletClient c = Some wc →
  ∃ legacy : bool,
    let quoted := EstimateContractGas params :: EstimateFeesPerGas ::
                  (if legacy then [GetGasPrice] else []) in
    (legacy = true ↔
       ∃ e m, estimateFeesPerGas pc = inl e ∧ message_of e = Some m ∧
              includes m "1559" = true) ∧
    onHandleApprove te c s =
      match (requestGasParams te c s).2 with
      | inl e => (failed s quoted (shown_message e), inr ())
      | inr gp =>
          let request := {| w_params := params; w_fees := feesPerGas gp;
                            w_gas := gasLimit |} in
          match writeContract wc request with
          | inl e => (failed s (flow_calls params legacy request)
                        (shown_message e), inr ())
          | inr hash => (succeeded s (flow_calls params legacy request) hash,
                         inr ())
          end
      end.
Proof.
  intros Ha Hpc Hr Ht params Hgas Hwc.
  rewrite (onHandleApprove_run c account router pc s Ha Hpc Hr Ht).
  fold params. rewrite Hgas, Hwc.
  match goal with |- context [requestGasParams te c ?s1] =>
    destruct (requestGasParams_calls c pc s1 Hpc) as (legacy & Hst & Hleg & _);
    rewrite (requestGasParams_result c s s1);
    destruct (requestGasParams te c s1) as [s2 [e|gp]] end;
    simpl in Hst; subst s2; exists legacy; (split; [exact Hleg|]); simpl.
  - unfold failed. by rewrite <- app_assoc.
  - unfold failed, succeeded, flow_calls.
    destruct (writeContract wc _); simpl;
      by rewrite <- !app_assoc.
Qed.


(** X2: when the guards pass, the gas limit is estimated, the wallet client
    is there, the resolver returns a quote and the write returns a hash, the
    run ends with that hash shown and no error; the one write it issued,
    last, carries the same descriptor as the gas estimation, the fee values
    of the quote and the estimated gas limit. *)
Theorem approve_submitted (c : Closure) (account router : string)
    (pc : PublicClient) (wc : WalletClient) (gasLimit : Z) (gp : GasParams)
    (hash : string) (s : State) :
  truthy (address c) = Some account →
  publicClient c = Some pc →
  truthy (uniswapAddress c) = Some router →
  tokenAddress c ≠ "" →
  let params := approve_params account router (tokenAddress c) in
  let request := {| w_params := params; w_fees := feesPerGas gp;
                    w_gas := gasLimit |} in
  estimateContractGas pc params = inr gasLimit →
  walletClient c = Some wc →
  (requestGasParams te c s).2 = inr gp →
  writeContract wc request = inr hash →
  ∃ legacy,
    onHandleApprove te c s
      = (succeeded s (flow_calls params legacy request) hash, inr ()).
Proof.
  intros Ha Hpc Hr Ht params request Hgas Hwc Hgp Hw.
  destruct (onHandleApprove_quoted c account router pc wc gasLimit s
              Ha Hpc Hr Ht Hgas Hwc) as (legacy & _ & ->).
  exists legacy. rewrite Hgp. cbv zeta. fold params. fold request.
  by rewrite Hw.
Qed.

(** X3: when the guards pass and the gas estimation is rejected, the run
    ends with the message of that rejection and the gas estimation as its
    only call, whether or not a wallet client is there. *)
Theorem gas_estimation_rejected (c : Closure) (account router : string)
    (pc : PublicClient) (e : thrown) (s : State) :
  truthy (address c) = Some account →
  publicClient c = Some pc →
  truthy (uniswapAddress c) = Some router →
  tokenAddress c ≠ "" →
  let params := approve_params account router (tokenAddress c) in
  estimateContractGas pc params = inl e →
  onHandleApprove te c s
    = (failed s [EstimateContractGas params] (shown_message e), inr ()).
Proof.
  intros Ha Hpc Hr Ht params Hgas.
  rewrite (onHandleApprove_run c account router pc s Ha Hpc Hr Ht).
  fold params. by rewrite Hgas.
Qed.

(** X4: when everything up to the write goes through and the write is
    rejected, the run ends with the message of that rejection and no hash;
    the write was issued once, last, and nothing follows it. *)
Theorem write_rejected (c : Closure) (account router : string)
    (pc : PublicClient) (wc : WalletClient) (gasLimit : Z) (gp : GasParams)
    (e : thrown) (s : State) :
  truthy (address c) = Some account →
  publicClient c = Some pc →
  truthy (uniswapAddress c) = Some router →
  tokenAddress c ≠ "" →
  let params := approve_params account router (tokenAddress c) in
  let request := {| w_params := params; w_fees := feesPerGas gp;
                    w_gas := gasLimit |} in
  estimateContractGas pc params = inr gasLimit →
  walletClient c = Some wc →
  (requestGasParams te c s).2 = inr gp →
  writeContract wc request = inl e →
  ∃ legacy,
    onHandleApprove te c s
      = (failed s (flow_calls params legacy request) (shown_message e), inr ()).
Proof.
  intros Ha Hpc Hr Ht params request Hgas Hwc Hgp Hw.
  destruct (onHandleApprove_quoted c account router pc wc gasLimit s
              Ha Hpc Hr Ht Hgas Hwc) as (legacy & _ & ->).
  exists legacy. rewrite Hgp. cbv zeta. fold params. fold request.
  by rewrite Hw.
Qed.

(** X5: in the fallback, a rejected legacy lookup ends the run with the
    message of the lookup's rejection, not that of the fee estimation, and
    no write is issued. *)
Theorem legacy_lookup_rejected (c : Closure) (account router : string)
    (pc : PublicClient) (wc : WalletClient) (gasLimit : Z)
    (e e' : thrown) (m : string) (s : State) :
  truthy (address c) = Some account →
  publicClient c = Some pc →
  truthy (uniswapAddress c) = Some router →
  tokenAddress c ≠ "" →
  let params := approve_params account router (tokenAddress c) in
  estimateContractGas pc params = inr gasLimit →
  walletClient c = Some wc →
  estimateFeesPerGas pc = inl e →
  message_of e = Some m →
  includes m "1559" = true →
  getGasPrice pc = inl e' →
  onHandleApprove te c s
    = (failed s [EstimateContractGas params; EstimateFeesPerGas; GetGasPrice]
         (shown_message e'), inr ()).
Proof.
  intros Ha Hpc Hr Ht params Hgas Hwc He Hm Hinc Hgp.
  rewrite (onHandleApprove_run c account router pc s Ha Hpc Hr Ht).
  fold params. rewrite Hgas, Hwc.
  rewrite (requestGasParams_rejected te c pc e m _ Hpc He Hm), Hinc, Hgp.
  rewrite sent_sent. done.
Qed.

(** X7: on every path on which the resolver returns, the flag it returns
    agrees with the quote it returns: is1559 is true exactly when the quote
    has a maxFeePerGas field, that is, when it is a fee-market quote. *)
Theorem is1559_matches_quote (c : Closure) (s : State) (gp : GasParams) :
  (requestGasParams te c s).2 = inr gp →
  is1559 gp = has_field "maxFeePerGas" (feesPerGas gp) ∧
  (is1559 gp = true ↔
     ∃ maxFee maxPriority, feesPerGas gp = FeeValuesEIP1559 maxFee maxPriority).
Proof.
  intros Hgp.
  assert (is1559 gp = has_field "maxFeePerGas" (feesPerGas gp)) as Hflag.
  { destruct (publicClient c) as [pc|] eqn:Hpc;
      [|by rewrite (requestGasParams_no_client te c s Hpc) in Hgp].
    destruct (estimateFeesPerGas pc) as [e|fees] eqn:He.
    - destruct (message_of e) as [m|] eqn:Hm;
        [|by rewrite (requestGasParams_rejected_no_message te c pc e s Hpc He Hm)
            in Hgp].
      rewrite (requestGasParams_rejected te c pc e m s Hpc He Hm) in Hgp.
      destruct (includes m "1559"); [|done]. simpl in Hgp.
      destruct (getGasPrice pc); [done|]. by injection Hgp as <-.
    - rewrite (requestGasParams_fulfilled te c pc fees s Hpc He) in Hgp.
      by injection Hgp as <-. }
  split; [exact Hflag|]. rewrite Hflag, has_field_maxFeePerGas.
  destruct (feesPerGas gp); split; try done; [by eexists _, _|].
  by intros (? & ? & [=]).
Qed.


(** Once the guards pass, the gas estimation for the approve descriptor is
    the first call of the run. *)
Lemma flow_first_call (c : Closure) (account router : string)
    (pc : PublicClient) (s : State) :
  truthy (address c) = Some account →
  publicClient c = Some pc →
  truthy (uniswapAddress c) = Some router →
  tokenAddress c ≠ "" →
  ∃ rest,
    network (onHandleApprove te c s).1
      = network s
        ++ EstimateContractGas (approve_params account router (tokenAddress c))
           :: rest.
Proof.
  intros Ha Hpc Hr Ht.
  rewrite (onHandleApprove_run c account router pc s Ha Hpc Hr Ht).
  set (params := approve_params account router (tokenAddress c)).
  destruct (estimateContractGas pc params) as [e|gasLimit]; [by exists []|].
  destruct (walletClient c) as [wc|]; [|by exists []].
  match goal with |- context [requestGasParams te c ?s1] =>
    destruct (requestGasParams_sent te c s1) as [quoted Hq];
    destruct (requestGasParams te c s1) as [s2 [e|gp]] end;
    simpl in Hq; subst s2.
  - exists quoted. simpl. by rewrite <- app_assoc.
  - cbv zeta.
    match goal with |- context [writeContract wc ?request] =>
      exists (quoted ++ [WriteContract request]);
      destruct (writeContract wc request) end;
      simpl; by rewrite <- !app_assoc.
Qed.

Lemma UNISWAP_ADDRESSES_entry (k : Z) (v : string) :
  UNISWAP_ADDRESSES !! k = Some v → k ≠ 0 ∧ truthy (Some v) = Some v.
Proof.
  unfold UNISWAP_ADDRESSES. intros H.
  repeat (apply lookup_insert_Some in H as [[<- <-]|[_ H]]; [done|]).
  by apply lookup_singleton_Some in H as [<- <-].
Qed.

(** X9: on a chain that has an entry in the router table, a rendered
    component with an account and a non-empty token address gets past the
    guards, and the first call of the run is the gas estimation of
    approve(router of the active chain, 2^256 - 1) on the token address
    typed in, from the connected account. *)
Theorem supported_chain_estimates (h : Hooks) (pc : PublicClient) (ch : Chain)
    (account router : string) :
  h_publicClient h = Some pc →
  chain pc = Some ch →
  UNISWAP_ADDRESSES !! chain_id ch = Some router →
  truthy (h_address h) = Some account →
  h_tokenAddress h ≠ "" →
  ∃ c, render h = Some c ∧
    ∀ s, ∃ rest,
      network (onHandleApprove te c s).1
        = network s
          ++ EstimateContractGas
               {| p_abi := APPROVE_ABI; p_account := account;
                  p_functionName := "approve"; p_address := h_tokenAddress h;
                  p_args := (router, 2 ^ 256 - 1) |} :: rest.
Proof.
  intros Hpc Hch Hrouter Ha Ht.
  destruct (UNISWAP_ADDRESSES_entry _ _ Hrouter) as [Hid Htruthy].
  assert (UNISWAP_ADDRESSES !! active_key pc = Some router) as Hkey.
  { unfold active_key. rewrite Hch.
    by destruct (Z.eqb_spec (chain_id ch) 0). }
  unfold render, uniswapAddress_memo. rewrite Hpc, Hkey.
  eexists. split; [done|]. intros s.
  match goal with |- context [onHandleApprove te ?c s] =>
    destruct (flow_first_call c account router pc s Ha eq_refl Htruthy Ht)
      as [rest Hrest] end.
  exists rest. rewrite Hrest. unfold approve_params; simpl.
  by rewrite maxAmount_value.
Qed.


(** X11: what a connected account sees after a run.  At most one banner is
    rendered.  When a step threw, there is no success banner, and the error
    banner shows the message unless it is empty; when no step threw, there
    is no error banner, and the success banner shows the hash the write
    returned unless it is empty. *)
Theorem banners_after_run (c : Closure) (s : State) :
  let shown := banners "connected" (onHandleApprove te c s).1 in
  (error_banner shown = None ∨ success_banner shown = None) ∧
  match (try_block te c s).2 with
  | inl e =>
      success_banner shown = None ∧
      error_banner shown = truthy (Some (shown_message e))
  | inr _ =>
      error_banner shown = None ∧
      ∃ wc request hash,
        walletClient c = Some wc ∧ writeContract wc request = inr hash ∧
        success_banner shown = truthy (Some hash)
  end.
Proof.
  destruct (try_block_outcome te c s) as [calls H].
  unfold onHandleApprove, try_catch.
  destruct (try_block te c s) as [s1 [e|[]]]; simpl in *.
  - subst s1. unfold banners; simpl. auto.
  - destruct H as (wc & request & hash & earlier & Hwc & Hw & -> & ->).
    unfold banners; simpl. split; [auto|]. split; [done|].
    by exists wc, request, hash.
Qed.

(** X12: a step that throws an error with an empty message leaves a
    connected account with no banner at all: neither an error nor a
    success is shown. *)
Theorem empty_message_shows_nothing (c : Closure) (s : State) (e : thrown) :
  (try_block te c s).2 = inl e →
  shown_message e = "" →
  banners "connected" (onHandleApprove te c s).1
    = {| error_banner := None; success_banner := None |}.
Proof.
  intros Hthrown Hempty.
  destruct (try_block_outcome te c s) as [calls H].
  unfold onHandleApprove, try_catch.
  destruct (try_block te c s) as [s1 [e1|[]]]; simpl in *; [|done].
  injection Hthrown as ->. subst s1. unfold banners; simpl.
  by rewrite Hempty.
Qed.


End FlowRuns.

(** X14: in the configuration every listed chain has a transport, and
    every transport belongs to a listed chain, whatever the ids of the five
    chains are. *)
Theorem config_transports_cover_chains
    (mainnet sepolia arbitrum gnosis aurora : Chain) :
  let cfg := config mainnet sepolia arbitrum gnosis aurora in
  dom (transports cfg) = list_to_set (chain_id <$> chains cfg) ∧
  Forall (λ ch, transports cfg !! chain_id ch = Some http) (chains cfg).
Proof.
  assert (dom (transports (config mainnet sepolia arbitrum gnosis aurora))
          = list_to_set
              (chain_id <$> chains (config mainnet sepolia arbitrum gnosis aurora)))
    as Hdom.
  { simpl. rewrite !dom_insert_L, dom_empty_L. apply set_eq. intros k.
    rewrite !elem_of_union, !elem_of_singleton. tauto. }
  split; [exact Hdom|].
  apply Forall_forall. intros ch Hin.
  destruct (transports (config mainnet sepolia arbitrum gnosis aurora)
              !! chain_id ch) as [[]|] eqn:Hlook; [done|].
  apply not_elem_of_dom in Hlook. rewrite Hdom in Hlook.
  exfalso. apply Hlook. apply elem_of_list_to_set, list_elem_of_fmap.
  by exists ch.
Qed.

(** ** The further properties at concrete inputs *)

Lemma approve_submitted_witness :
  let params := approve_params owner router42161 token in
  let request := {| w_params := params; w_fees := FeeValuesEIP1559 30 2;
                    w_gas := 46000 |} in
  ∃ legacy,
    onHandleApprove v8_type_error
      (closure (Some owner) (Some (client1559 (Some arbitrum))) (Some wallet)
         token (Some router42161)) initial
    = (succeeded initial (flow_calls params legacy request) "0xabc123", inr ()).
Proof.
  apply (approve_submitted v8_type_error
           (closure (Some owner) (Some (client1559 (Some arbitrum)))
              (Some wallet) token (Some router42161))
           owner router42161 (client1559 (Some arbitrum)) wallet 46000
           {| feesPerGas := FeeValuesEIP1559 30 2; is1559 := true |}
           "0xabc123" initial);
    (reflexivity || discriminate).
Defined.

Lemma gas_estimation_rejected_witness :
  onHandleApprove v8_type_error
    (closure (Some owner) (Some (clientGasRejecting (Some arbitrum) reverted))
       None token (Some router42161)) initial
  = (failed initial
       [EstimateContractGas (approve_params owner router42161 token)]
       "execution reverted", inr ()).
Proof.
  apply (gas_estimation_rejected v8_type_error
           (closure (Some owner)
              (Some (clientGasRejecting (Some arbitrum) reverted)) None token
              (Some router42161))
           owner router42161 (clientGasRejecting (Some arbitrum) reverted)
           reverted initial);
    (reflexivity || discriminate).
Defined.

Lemma write_rejected_witness :
  let params := approve_params owner router42161 token in
  let request := {| w_params := params; w_fees := FeeValuesEIP1559 30 2;
                    w_gas := 46000 |} in
  ∃ legacy,
    onHandleApprove v8_type_error
      (closure (Some owner) (Some (client1559 (Some arbitrum)))
         (Some (walletRejecting rejected)) token (Some router42161)) initial
    = (failed initial (flow_calls params legacy request)
         "User rejected the request.", inr ()).
Proof.
  apply (write_rejected v8_type_error
           (closure (Some owner) (Some (client1559 (Some arbitrum)))
              (Some (walletRejecting rejected)) token (Some router42161))
           owner router42161 (client1559 (Some arbitrum))
           (walletRejecting rejected) 46000
           {| feesPerGas := FeeValuesEIP1559 30 2; is1559 := true |}
           rejected initial);
    (reflexivity || discriminate).
Defined.

Lemma legacy_lookup_rejected_witness :
  onHandleApprove v8_type_error
    (closure (Some owner) (Some (clientNoPrice (Some arbitrum) no1559 timed_out))
       (Some wallet) token (Some router42161)) initial
  = (failed initial
       [EstimateContractGas (approve_params owner router42161 token);
        EstimateFeesPerGas; GetGasPrice]
       "The request took too long to respond.", inr ()).
Proof.
  apply (legacy_lookup_rejected v8_type_error
           (closure (Some owner)
              (Some (clientNoPrice (Some arbitrum) no1559 timed_out))
              (Some wallet) token (Some router42161))
           owner router42161 (clientNoPrice (Some arbitrum) no1559 timed_out)
           wallet 46000 no1559 timed_out
           "Chain does not support EIP-1559 fees." initial);
    (reflexivity || discriminate).
Defined.

Lemma is1559_matches_quote_witness :
  let gp := {| feesPerGas := FeeValuesLegacy 25; is1559 := false |} in
  is1559 gp = has_field "maxFeePerGas" (feesPerGas gp) ∧
  (is1559 gp = true ↔
     ∃ maxFee maxPriority, feesPerGas gp = FeeValuesEIP1559 maxFee maxPriority).
Proof.
  apply (is1559_matches_quote v8_type_error
           (closure (Some owner) (Some (clientRejecting (Some arbitrum) no1559))
              (Some wallet) token (Some router42161))
           initial {| feesPerGas := FeeValuesLegacy 25; is1559 := false |}).
  reflexivity.
Defined.

Lemma supported_chain_estimates_witness :
  ∃ c, render (hooks (Some owner) (Some (client1559 (Some arbitrum)))
                 (Some wallet) token) = Some c ∧
    ∀ s, ∃ rest,
      network (onHandleApprove v8_type_error c s).1
        = network s
          ++ EstimateContractGas
               {| p_abi := APPROVE_ABI; p_account := owner;
                  p_functionName := "approve"; p_address := token;
                  p_args := (router42161, 2 ^ 256 - 1) |} :: rest.
Proof.
  apply (supported_chain_estimates v8_type_error
           (hooks (Some owner) (Some (client1559 (Some arbitrum))) (Some wallet)
              token)
           (client1559 (Some arbitrum)) arbitrum owner router42161);
    (reflexivity || discriminate).
Defined.

Lemma empty_message_shows_nothing_witness :
  banners "connected"
    (onHandleApprove v8_type_error
       (closure (Some owner)
          (Some (clientGasRejecting (Some arbitrum) (ErrorObj "")))
          (Some wallet) token (Some router42161)) initial).1
  = {| error_banner := None; success_banner := None |}.
Proof.
  apply (empty_message_shows_nothing v8_type_error
           (closure (Some owner)
              (Some (clientGasRejecting (Some arbitrum) (ErrorObj "")))
              (Some wallet) token (Some router42161))
           initial (ErrorObj ""));
    reflexivity.
Defined.

